(** * pangeo-tutorial: the functions the notebooks define

    The repository is two Jupyter notebooks, [notebooks/xarray.ipynb] and
    [notebooks/amazon-web-services/cesm-lens.ipynb].  Most cells call
    straight into numpy, xarray, pandas, intake, dask and matplotlib; a few
    define logic of their own: [calc_slope] (cell 38),
    [weighted_temporal_mean] (cell 30), the season-count assertion (cell 42)
    and the longitude remap (cell 45).  Those are embedded here as functions
    over exact rationals extended with the IEEE special values; the calls
    into the libraries are recorded as a trace of events, cell by cell. *)

From Stdlib Require Import String.
From Stdlib Require Import QArith Qround Qabs ZArith List Bool Lia Lqa.
From Stdlib Require Import Sorting.Permutation Sorting.Sorted Setoid Morphisms.
Import ListNotations.

Local Open Scope Q_scope.

(** ** Floating-point values

    A float64 is NaN, an infinity or a rational.  Rounding and signed
    zeros are left out: arithmetic on the finite values is exact. *)
Module Float.

Inductive float : Type :=
| NaN
| PInf
| NInf
| Fin (q : Q).

Definition isnan (x : float) : bool :=
  match x with NaN => true | _ => false end.

Definition isfinite (x : float) : bool :=
  match x with Fin _ => true | _ => false end.

Definition fneg (x : float) : float :=
  match x with
  | NaN => NaN
  | PInf => NInf
  | NInf => PInf
  | Fin q => Fin (- q)
  end.

Definition fadd (x y : float) : float :=
  match x, y with
  | NaN, _ | _, NaN => NaN
  | PInf, NInf | NInf, PInf => NaN
  | PInf, _ | _, PInf => PInf
  | NInf, _ | _, NInf => NInf
  | Fin a, Fin b => Fin (a + b)
  end.

Definition fsub (x y : float) : float := fadd x (fneg y).

(** The infinity with the sign of [q], NaN when [q] is zero. *)
Definition signed_inf (q : Q) (pos : bool) : float :=
  match q ?= 0 with
  | Eq => NaN
  | Gt => if pos then PInf else NInf
  | Lt => if pos then NInf else PInf
  end.

Definition fmul (x y : float) : float :=
  match x, y with
  | NaN, _ | _, NaN => NaN
  | PInf, PInf | NInf, NInf => PInf
  | PInf, NInf | NInf, PInf => NInf
  | PInf, Fin q | Fin q, PInf => signed_inf q true
  | NInf, Fin q | Fin q, NInf => signed_inf q false
  | Fin a, Fin b => Fin (a * b)
  end.

Definition fdiv (x y : float) : float :=
  match x, y with
  | NaN, _ | _, NaN => NaN
  | (PInf | NInf), (PInf | NInf) => NaN
  | PInf, Fin q => match q ?= 0 with Lt => NInf | _ => PInf end
  | NInf, Fin q => match q ?= 0 with Lt => PInf | _ => NInf end
  | Fin _, (PInf | NInf) => Fin 0
  | Fin a, Fin b =>
      match b ?= 0 with
      | Eq => signed_inf a true
      | _ => Fin (a / b)
      end
  end.

(** Python's and numpy's [%] on floats: the result takes the sign of the
    divisor, [x - m * floor (x / m)]. *)
Definition fmod (x m : float) : float :=
  match x, m with
  | Fin a, Fin b =>
      match b ?= 0 with
      | Eq => NaN
      | _ => Fin (a - b * inject_Z (Qfloor (a / b)))
      end
  | Fin a, PInf => match a ?= 0 with Lt => PInf | _ => Fin a end
  | Fin a, NInf => match a ?= 0 with Gt => NInf | _ => Fin a end
  | _, _ => NaN
  end.

(** Equality of floats as values: NaN is identified with itself here, the
    rationals are compared by [Qeq]. *)
Definition feq (x y : float) : Prop :=
  match x, y with
  | NaN, NaN | PInf, PInf | NInf, NInf => True
  | Fin a, Fin b => a == b
  | _, _ => False
  end.

(** The order [np.lexsort] and [np.sort] use: NaN sorts last. *)
Definition fleb (x y : float) : bool :=
  match x, y with
  | _, NaN => true
  | NaN, _ => false
  | NInf, _ => true
  | _, NInf => false
  | _, PInf => true
  | PInf, _ => false
  | Fin a, Fin b => Qle_bool a b
  end.

(** The sum of an array, from zero. *)
Fixpoint fsum (l : list float) : float :=
  match l with
  | [] => Fin 0
  | v :: l' => fadd v (fsum l')
  end.

(** [nansum]: the sum xarray takes of a float array by default
    ([skipna=True]), NaN entries counting as zero. *)
Definition nansum (l : list float) : float :=
  fsum (filter (fun v => negb (isnan v)) l).

(** [nanmean]: the mean over the entries that are not NaN; NaN when there
    is none. *)
Definition nanmean (l : list float) : float :=
  let kept := filter (fun v => negb (isnan v)) l in
  match kept with
  | [] => NaN
  | _ :: _ => fdiv (fsum kept) (Fin (inject_Z (Z.of_nat (length kept))))
  end.

End Float.
Import Float.

(** ** Exceptions and results *)
Inductive exn : Type :=
| TypeError (msg : string)
| IndexError (msg : string)
| ValueError (msg : string)
| AssertionError (msg : string).

Inductive result (A : Type) : Type :=
| Ok (a : A)
| Raise (e : exn).
Arguments Ok {A} a.
Arguments Raise {A} e.

Definition bind {A B : Type} (r : result A) (k : A -> result B) : result B :=
  match r with
  | Ok a => k a
  | Raise e => Raise e
  end.

Notation "x <- c ;; k" := (bind c (fun x => k))
  (at level 61, c at next level, right associativity).

(** ** The numpy operations [calc_slope] is written with *)
Module Numpy.

(** [np.arange(n)] *)
Definition arange (n : nat) : list Z := map Z.of_nat (seq 0 n).

(** [np.isnan(y)], elementwise *)
Definition isnan (y : list float) : list bool := map Float.isnan y.

(** [~mask] *)
Definition invert (mask : list bool) : list bool := map negb mask.

(** [np.sum(mask)] of a boolean array: the number of [True] *)
Definition sum_bool (mask : list bool) : Z :=
  Z.of_nat (length (filter (fun b => b) mask)).

(** [a[mask]]: boolean-mask indexing keeps the entries whose flag is set;
    numpy raises IndexError when the mask is not as long as the array. *)
Fixpoint getitem_mask {A : Type} (a : list A) (mask : list bool) : result (list A) :=
  match a, mask with
  | [], [] => Ok []
  | v :: a', b :: mask' =>
      rest <- getitem_mask a' mask' ;;
      Ok (if b then v :: rest else rest)
  | _, _ => Raise (IndexError "boolean index did not match indexed array")
  end.

(** [a[i]] for a non-negative position *)
Definition getitem {A : Type} (a : list A) (i : nat) : result A :=
  match nth_error a i with
  | Some v => Ok v
  | None => Raise (IndexError "index out of bounds")
  end.

(** [np.diff(a)]: [a[j+1] - a[j]] *)
Definition diff (a : list float) : list float :=
  match a with
  | [] => []
  | _ :: tl => map (fun p => fsub (fst p) (snd p)) (combine tl a)
  end.

(** [np.testing.assert_allclose(actual, desired)] against a scalar, with
    the defaults [rtol=1e-07], [atol=0]: every entry has to be finite and
    within [rtol * |desired|] of [desired]. *)
Definition rtol : Q := 1 # 10000000.

Definition isclose (desired : Q) (actual : float) : bool :=
  match actual with
  | Fin a => Qle_bool (Qabs (a - desired)) (rtol * Qabs desired)
  | _ => false
  end.

Definition assert_allclose (actual : list float) (desired : Q) : result unit :=
  if forallb (isclose desired) actual then Ok tt
  else Raise (AssertionError "Not equal to tolerance rtol=1e-07, atol=0").

End Numpy.

(** ** cesm-lens.ipynb, cell 38: [calc_slope] *)
Section CalcSlope.

(** [np.polyfit(x, y, deg)]: owned by numpy, so a parameter here.  It
    returns the coefficients, highest power first, or raises. *)
Variable polyfit : list Z -> list float -> nat -> result (list float).

Definition calc_slope (y : list float) : result float :=
  let x := Numpy.arange (length y) in
  let finite_indexes := Numpy.invert (Numpy.isnan y) in
  if (Numpy.sum_bool finite_indexes <? 2)%Z then Ok NaN
  else
    xs <- Numpy.getitem_mask x finite_indexes ;;
    ys <- Numpy.getitem_mask y finite_indexes ;;
    coeffs <- polyfit xs ys 1%nat ;;
    Numpy.getitem coeffs 0.

End CalcSlope.

(** ** Least squares on exact rationals *)

Fixpoint sumQ (l : list Q) : Q :=
  match l with
  | [] => 0
  | q :: l' => q + sumQ l'
  end.

(** The sums the normal equations of the degree-1 fit are made of. *)
Definition s_n (pts : list (Q * Q)) : Q := inject_Z (Z.of_nat (length pts)).
Definition s_x (pts : list (Q * Q)) : Q := sumQ (map fst pts).
Definition s_y (pts : list (Q * Q)) : Q := sumQ (map snd pts).
Definition s_xx (pts : list (Q * Q)) : Q := sumQ (map (fun p => fst p * fst p) pts).
Definition s_xy (pts : list (Q * Q)) : Q := sumQ (map (fun p => fst p * snd p) pts).

(** The normal equations, solved by Cramer's rule. *)
Definition fit_det (pts : list (Q * Q)) : Q :=
  s_n pts * s_xx pts - s_x pts * s_x pts.

Definition linear_fit (pts : list (Q * Q)) : Q * Q :=
  ((s_n pts * s_xy pts - s_x pts * s_y pts) / fit_det pts,
   (s_xx pts * s_y pts - s_x pts * s_xy pts) / fit_det pts).

(** The rationals of an array without NaN and infinities. *)
Fixpoint finite_values (y : list float) : option (list Q) :=
  match y with
  | [] => Some []
  | Fin q :: y' => option_map (cons q) (finite_values y')
  | _ :: _ => None
  end.

(** A reference [np.polyfit] in exact arithmetic.  The argument checks are
    numpy's (a TypeError for an empty [x] and for [x] and [y] of different
    lengths); the solve is the exact least-squares line.  What numpy does
    beyond that is not reproduced: for a rank-deficient system (numpy gives
    the minimum-norm solution and a RankWarning), for data that are not all
    finite and for degrees other than 1 the reference answers [deg + 1]
    coefficients NaN. *)
Definition np_polyfit (x : list Z) (y : list float) (deg : nat) : result (list float) :=
  match x with
  | [] => Raise (TypeError "expected non-empty vector for x")
  | _ :: _ =>
      if negb (length x =? length y)%nat
      then Raise (TypeError "expected x and y to have same length")
      else
        match deg, finite_values y with
        | 1%nat, Some ys =>
            let pts := combine (map inject_Z x) ys in
            if Qeq_bool (fit_det pts) 0 then Ok [NaN; NaN]
            else Ok [Fin (fst (linear_fit pts)); Fin (snd (linear_fit pts))]
        | _, _ => Ok (repeat NaN (S deg))
        end
  end.

(** What [calc_slope] needs from [np.polyfit] to return: on two or more
    points with distinct abscissas and finite ordinates the call of
    degree 1 raises nothing and answers an array of coefficients that is
    not empty.  Nothing is asked of the values of the coefficients. *)
Definition polyfit_returns
    (polyfit : list Z -> list float -> nat -> result (list float)) : Prop :=
  forall (xs : list Z) (ys : list float),
    (2 <= length xs)%nat -> NoDup xs -> length xs = length ys ->
    Forall (fun v => Float.isfinite v = true) ys ->
    exists c cs, polyfit xs ys 1%nat = Ok (c :: cs).

(** The entries of [y] that are not NaN, each with its position, positions
    counted from [i]. *)
Fixpoint points_from (i : Z) (y : list float) : list (Z * float) :=
  match y with
  | [] => []
  | v :: y' =>
      if Float.isnan v then points_from (i + 1) y'
      else (i, v) :: points_from (i + 1) y'
  end.

Definition finite_points (y : list float) : list (Z * float) := points_from 0 y.

(** A real-valued array: every entry is a real number or NaN. *)
Definition real_or_nan (v : float) : Prop :=
  match v with NaN | Fin _ => True | _ => False end.

Definition count_finite (y : list float) : nat :=
  length (filter (fun v => negb (Float.isnan v)) y).

(** ** cesm-lens.ipynb, cell 30: [weighted_temporal_mean]

    The HadCRUT4 dataset along its time dimension: for every time stamp
    its position on the time line (whole days since the epoch of the
    file), its calendar year (what [groupby("time.year")] and the annual
    bins of [resample(time="AS")] look at), its row of [time_bnds] along
    [nbnds] and its slab of [air], the grid cells of (lat, lon) in one
    row. *)
Record sample : Type := {
  s_time : Z;
  s_year : Z;
  s_time_bnds : list float;
  s_air : list float
}.

Definition dataset : Type := list sample.

(** [ds.time_bnds.diff(dim="nbnds")[:, 0]] *)
Fixpoint time_bound_diff (ds : dataset) : result (list float) :=
  match ds with
  | [] => Ok []
  | s :: ds' =>
      d <- Numpy.getitem (Numpy.diff (s_time_bnds s)) 0 ;;
      rest <- time_bound_diff ds' ;;
      Ok (d :: rest)
  end.

(** The entries of [v] whose time stamp falls in [year]. *)
Definition in_year {A : Type} (year : Z) (years : list Z) (v : list A) : list A :=
  map snd (filter (fun p => (fst p =? year)%Z) (combine years v)).

(** [v.groupby("time.year").sum(xr.ALL_DIMS)] at [year] *)
Definition group_sum (years : list Z) (v : list float) (year : Z) : float :=
  nansum (in_year year years v).

(** [v.groupby("time.year") / v.groupby("time.year").sum(xr.ALL_DIMS)]:
    every entry over the sum of its year, in the order of [v]. *)
Definition groupby_div_sum (years : list Z) (v : list float) : list float :=
  map (fun p => fdiv (snd p) (group_sum years v (fst p))) (combine years v).

(** The years from the first to the last one present, in order: the bins
    of [resample(time="AS")]. *)
Definition year_range (years : list Z) : list Z :=
  match years with
  | [] => []
  | y :: ys =>
      let lo := fold_left Z.min ys y in
      let hi := fold_left Z.max ys y in
      map (fun k => (lo + Z.of_nat k)%Z) (seq 0 (Z.to_nat (hi - lo + 1)))
  end.

(** The years present, in order: the groups of [groupby("time.year")]. *)
Definition unique_years (years : list Z) : list Z :=
  filter (fun y => existsb (Z.eqb y) years) (year_range years).

(** [arr * wgts], [wgts] broadcast over the grid cells *)
Definition mul_time (arr : list (list float)) (wgts : list float) : list (list float) :=
  map (fun p => map (fun v => fmul v (snd p)) (fst p)) (combine arr wgts).

(** [arr.resample(time="AS").sum(dim="time")]: for every annual bin, the
    sum over its time stamps in every grid cell. *)
Definition column (c : nat) (rows : list (list float)) : list float :=
  map (fun row => nth c row NaN) rows.

Definition ncells (arr : list (list float)) : nat :=
  match arr with
  | [] => 0
  | row :: _ => length row
  end.

Definition resample_sum (years : list Z) (arr : list (list float))
  : list (Z * list float) :=
  map (fun year =>
         (year, map (fun c => nansum (column c (in_year year years arr)))
                    (seq 0 (ncells arr))))
      (year_range years).

Definition weights_check (years : list Z) (wgts : list float) : result unit :=
  Numpy.assert_allclose (map (group_sum years wgts) (unique_years years)) 1.

(** [groupby("time.year")] refuses a time axis without entries. *)
Definition groupby_year (years : list Z) : result unit :=
  match years with
  | [] => Raise (ValueError "year must not be empty")
  | _ :: _ => Ok tt
  end.

(** The index test of [resample]: no time stamp before its predecessor. *)
Fixpoint is_monotonic_increasing (time : list Z) : bool :=
  match time with
  | [] => true
  | t :: rest =>
      match rest with
      | [] => true
      | t' :: _ => (t <=? t')%Z && is_monotonic_increasing rest
      end
  end.

(** [resample(time="AS")] refuses a time axis that is not monotonic. *)
Definition resample_time (time : list Z) : result unit :=
  if is_monotonic_increasing time then Ok tt
  else Raise (ValueError "index must be monotonic for resampling").

Definition weighted_temporal_mean (ds : dataset) : result (list (Z * float)) :=
  time_bound_diff <- time_bound_diff ds ;;
  let years := map s_year ds in
  _ <- groupby_year years ;;
  let wgts := groupby_div_sum years time_bound_diff in
  _ <- weights_check years wgts ;;
  let obs := map s_air ds in
  let cond := map (map Float.isnan) obs in
  let ones := map (map (fun c : bool => if c then Fin 0 else Fin 1)) cond in
  _ <- resample_time (map s_time ds) ;;
  let obs_sum := resample_sum years (mul_time obs wgts) in
  let ones_out := resample_sum years (mul_time ones wgts) in
  let obs_s :=
    map (fun p =>
           (fst (fst p),
            nanmean (map (fun q => fdiv (fst q) (snd q))
                         (combine (snd (fst p)) (snd (snd p))))))
        (combine obs_sum ones_out) in
  Ok obs_s.

(** Two months of one year on a grid of two cells, the second cell
    without observations. *)
Definition jan_feb : dataset :=
  [ {| s_time := 15; s_year := 2000;
       s_time_bnds := [Fin 0; Fin 31]; s_air := [Fin 0; NaN] |};
    {| s_time := 45; s_year := 2000;
       s_time_bnds := [Fin 31; Fin 59]; s_air := [Fin 59; NaN] |} ].

(** A time stamp whose two bounds coincide. *)
Definition zero_width : dataset :=
  [ {| s_time := 5; s_year := 2000;
       s_time_bnds := [Fin 5; Fin 5]; s_air := [Fin 1] |} ].

(** A time-bound difference that is a positive real. *)
Definition positive_diff (v : float) : Prop :=
  match v with Fin q => 0 < q | _ => False end.

(** The rational a finite float stands for. *)
Definition to_Q (v : float) : Q :=
  match v with Fin q => q | _ => 0 end.

(** ** cesm-lens.ipynb, cell 42: [assert len(winter_seasons.time) == 34] *)
Definition check_winter_seasons {A : Type} (winter_seasons_time : list A) : result unit :=
  if (length winter_seasons_time =? 34)%nat then Ok tt
  else Raise (AssertionError "").

(** ** cesm-lens.ipynb, cell 45: the longitude remap

    [ds.assign_coords(lon=((ds.lon + 360) % 360)).sortby('lon')].  The
    dataset is given along its [lon] dimension: every longitude with the
    slab of data that sits at it. *)
Definition remap_lon (lon : float) : float :=
  fmod (fadd lon (Fin 360)) (Fin 360).

Definition assign_coords_lon {A : Type} (ds : list (float * A)) : list (float * A) :=
  map (fun p => (remap_lon (fst p), snd p)) ds.

(** [sortby] orders the positions with [np.lexsort], a stable sort. *)
Fixpoint insert_by_lon {A : Type} (p : float * A) (l : list (float * A))
  : list (float * A) :=
  match l with
  | [] => [p]
  | q :: l' =>
      if fleb (fst p) (fst q) then p :: q :: l'
      else q :: insert_by_lon p l'
  end.

Fixpoint sortby_lon {A : Type} (ds : list (float * A)) : list (float * A) :=
  match ds with
  | [] => []
  | p :: ds' => insert_by_lon p (sortby_lon ds')
  end.

Definition remap_longitudes {A : Type} (ds : list (float * A)) : list (float * A) :=
  sortby_lon (assign_coords_lon ds).

(** A longitude in the closed interval [[lo, hi]], and one in the
    half-open interval [[lo, hi)]. *)
Definition lon_closed (lo hi : Q) (lon : float) : Prop :=
  match lon with
  | Fin q => lo <= q /\ q <= hi
  | _ => False
  end.

Definition lon_half_open (lo hi : Q) (lon : float) : Prop :=
  match lon with
  | Fin q => lo <= q /\ q < hi
  | _ => False
  end.

Definition fle (x y : float) : Prop := fleb x y = true.

(** The order of the slabs by their longitude. *)
Definition lon_le {A : Type} (p q : float * A) : Prop := fle (fst p) (fst q).

(** ** The calls the notebooks make

    A run of a notebook executes its code cells in order.  What is kept of
    a run here are the calls that read data, the calls that address the
    dask cluster and the calls that carry out one of the operations the
    specification names; every call is tagged with the place it is written
    at, the cell itself or a function the notebook defines, whose body runs
    when a cell calls it. *)
Module Notebook.

Inductive call : Type :=
(* reading data *)
| utils_get_sst_data                       (* from utils import get_sst_data; get_sst_data() *)
| xr_open_dataset (path : string)
| xr_open_mfdataset (paths : string)
| pd_read_csv (url : string)
| intake_open_esm_datastore (url : string)
| intake_Catalog (path : string)
| to_dataset_dict                          (* col_subset.to_dataset_dict(zarr_kwargs=..., storage_options=...) *)
| to_dask (entry : string)                 (* cat.HadCRUT4.to_dask() *)
| read (entry : string)                    (* cat.gistemp.read() *)
(* the cluster *)
| KubeCluster
| adapt (minimum maximum wait_count : nat) (* cluster.adapt(minimum=.., maximum=.., wait_count=..) *)
| Client                                   (* Client(cluster) *)
| load (obj : string)                      (* obj.load() *)
| to_series (obj : string)                 (* obj.to_series() *)
| client_close
| cluster_close
(* the operations *)
| sel (obj : string)
| groupby (obj : string)
| resample (obj : string)
| rolling (obj : string)
| weighted_mean (obj : string)             (* (obj * weights).sum(...) / total *)
| apply_ufunc_calc_slope (obj : string).   (* xr.apply_ufunc(calc_slope, obj, ...) *)

Inductive origin : Type :=
| Inline
| InFunction (name : string).

Definition event : Type := (origin * call)%type.

(** A notebook: its code cells that make such calls, by index, in order. *)
Definition notebook : Type := list (nat * list event).

Definition xarray_ipynb : notebook :=
  [ (20%nat, [(Inline, sel "da_f")]);
    (21%nat, [(Inline, sel "da_f")]);
    (26%nat, [(Inline, sel "da_f * da_g")]);
    (28%nat, [(Inline, utils_get_sst_data)]);
    (29%nat, [(Inline, xr_open_dataset
                 "/home/jovyan/.xarray_tutorial_data/sst/NOAA_NCDC_ERSST_v3b_SST-1960.nc")]);
    (33%nat, [(Inline, sel "sst")]);
    (35%nat, [(Inline, sel "sst")]);
    (36%nat, [(Inline, sel "sst")]);
    (47%nat, [(Inline, weighted_mean "sst")]);
    (55%nat, [(Inline, xr_open_mfdataset "/home/jovyan/.xarray_tutorial_data/sst/*nc")]);
    (58%nat, [(Inline, groupby "ds_all.sst")]);
    (62%nat, [(Inline, sel "ds_all.sst"); (Inline, resample "sst_ts")]);
    (65%nat, [(Inline, rolling "sst_ts")]);
    (69%nat, [(Inline, pd_read_csv "https://www.cpc.ncep.noaa.gov/data/indices/sstoi.indices")]) ].

(** The body of [weighted_temporal_mean], run on [ds]. *)
Definition weighted_temporal_mean_calls : list event :=
  map (pair (InFunction "weighted_temporal_mean"))
    [ groupby "time_bound_diff"; groupby "time_bound_diff"; groupby "wgts";
      resample "obs * wgts"; resample "ones * wgts";
      weighted_mean "obs"; to_series "obs_s" ].

(** The body of [linear_trend], run on [da]. *)
Definition linear_trend_calls (da : string) : list event :=
  [ (InFunction "linear_trend", apply_ufunc_calc_slope da) ].

Definition cesm_lens_ipynb : notebook :=
  [ (4%nat, [(Inline, KubeCluster); (Inline, adapt 2 25 60); (Inline, Client)]);
    (7%nat, [(Inline, intake_open_esm_datastore
                "https://ncar-cesm-lens.s3-us-west-2.amazonaws.com/catalogs/aws-cesm1-le.json")]);
    (13%nat, [(Inline, to_dataset_dict)]);
    (17%nat, [(Inline, sel "t_20c")]);
    (21%nat, [(Inline, resample "t_ref"); (Inline, weighted_mean "t_ref");
              (Inline, resample "t_20c"); (Inline, weighted_mean "t_20c");
              (Inline, resample "t_rcp"); (Inline, weighted_mean "t_rcp")]);
    (23%nat, [(Inline, load "t_ref_ts")]);
    (24%nat, [(Inline, to_series "t_20c_ts")]);
    (25%nat, [(Inline, to_series "t_rcp_ts")]);
    (27%nat, [(Inline, intake_Catalog "catalog.yml")]);
    (28%nat, [(Inline, to_dask "HadCRUT4")]);
    (31%nat, weighted_temporal_mean_calls);
    (40%nat, [(Inline, sel "t"); (Inline, resample "t"); (Inline, sel "seasons");
              (Inline, load "seasons")]);
    (41%nat, [(Inline, sel "seasons")] ++ linear_trend_calls "winter_seasons"
              ++ [(Inline, load "winter_trends")]);
    (44%nat, [(Inline, read "gistemp")]);
    (47%nat, [(Inline, sel "ds"); (Inline, resample "ds"); (Inline, sel "obs_seasons");
              (Inline, load "obs_seasons"); (Inline, sel "obs_seasons")]);
    (49%nat, linear_trend_calls "obs_winter_seasons" ++ [(Inline, load "obs_winter_trends")]);
    (55%nat, [(Inline, client_close); (Inline, cluster_close)]) ].

(** The calls of a run, in order. *)
Definition trace (nb : notebook) : list event := flat_map snd nb.

Definition repository_trace : list event := trace xarray_ipynb ++ trace cesm_lens_ipynb.

(** *** The boundaries the specification lists *)
Inductive boundary : Type :=
| ArrayFormatFile        (* (a) local/remote array-format files *)
| DatasetCatalog         (* (b) a JSON/YAML catalog of remote datasets *)
| ObjectStore            (* (c) a cloud object store serving chunked array data *)
| ClusterProvisioning    (* (d) a cluster-provisioning API *)
| FigureOutput.          (* (e) a plotting library's figure output *)

Definition is_input (c : call) : bool :=
  match c with
  | utils_get_sst_data | xr_open_dataset _ | xr_open_mfdataset _ | pd_read_csv _
  | intake_open_esm_datastore _ | intake_Catalog _ | to_dataset_dict
  | to_dask _ | read _ => true
  | _ => false
  end.

(** The listed boundary a reading call goes through, if any.  The
    datasets a catalog entry names are array data behind the catalog;
    [get_sst_data] of the [utils] module puts the array-format files
    under [~/.xarray_tutorial_data/sst/] that the next cells open (cell
    29, and the [open_mfdataset] over [*nc] of cell 55); the text table
    [pd.read_csv] fetches over HTTP is none of the five. *)
Definition listed_boundary (c : call) : option boundary :=
  match c with
  | utils_get_sst_data
  | xr_open_dataset _ | xr_open_mfdataset _ | to_dask _ | read _ => Some ArrayFormatFile
  | intake_open_esm_datastore _ | intake_Catalog _ => Some DatasetCatalog
  | to_dataset_dict => Some ObjectStore
  | KubeCluster => Some ClusterProvisioning
  | _ => None
  end.

Definition inputs (tr : list event) : list call :=
  filter is_input (map snd tr).

(** *** The calls that address the cluster *)
Definition is_cluster_call (c : call) : bool :=
  match c with
  | KubeCluster | adapt _ _ _ | Client | load _ | to_series _
  | client_close | cluster_close => true
  | _ => false
  end.

Definition cluster_calls (tr : list event) : list call :=
  filter is_cluster_call (map snd tr).

(** What the specification allows towards the cluster: setting the
    minimum and maximum worker counts, and blocking compute calls. *)
Definition configures_or_computes (c : call) : bool :=
  match c with
  | adapt _ _ _ | load _ | to_series _ => true
  | _ => false
  end.

(** *** The operations the specification names *)
Inductive operation : Type :=
| LabelSelection
| Grouping
| Resampling
| RollingMean
| WeightedMean
| LinearTrend
| ClusterAutoscaling.

Definition named_operations : list operation :=
  [LabelSelection; Grouping; Resampling; RollingMean; WeightedMean; LinearTrend;
   ClusterAutoscaling].

Definition operation_eqb (a b : operation) : bool :=
  match a, b with
  | LabelSelection, LabelSelection | Grouping, Grouping | Resampling, Resampling
  | RollingMean, RollingMean | WeightedMean, WeightedMean | LinearTrend, LinearTrend
  | ClusterAutoscaling, ClusterAutoscaling => true
  | _, _ => false
  end.

(** The operation a call carries out, and the data it is applied to. *)
Definition operation_of (c : call) : option (operation * string) :=
  match c with
  | sel obj => Some (LabelSelection, obj)
  | groupby obj => Some (Grouping, obj)
  | resample obj => Some (Resampling, obj)
  | rolling obj => Some (RollingMean, obj)
  | weighted_mean obj => Some (WeightedMean, obj)
  | apply_ufunc_calc_slope obj => Some (LinearTrend, obj)
  | adapt _ _ _ => Some (ClusterAutoscaling, "cluster"%string)
  | _ => None
  end.

(** The uses of [op] in a run: where each is written and on what data. *)
Fixpoint uses (op : operation) (tr : list event) : list (origin * string) :=
  match tr with
  | [] => []
  | (o, c) :: tr' =>
      match operation_of c with
      | Some (op', obj) =>
          if operation_eqb op op' then (o, obj) :: uses op tr' else uses op tr'
      | None => uses op tr'
      end
  end.

(** Used once, inline, for a specific dataset. *)
Definition used_once_inline (tr : list event) (op : operation) : Prop :=
  exists obj, uses op tr = [(Inline, obj)].

Definition is_inline (u : origin * string) : bool :=
  match fst u with Inline => true | InFunction _ => false end.

End Notebook.

(** [calc_slope] without its own logic: the whole vector handed to
    [np.polyfit] against its positions. *)
Definition polyfit_slope
    (polyfit : list Z -> list float -> nat -> result (list float))
    (y : list float) : result float :=
  coeffs <- polyfit (Numpy.arange (length y)) y 1%nat ;;
  Numpy.getitem coeffs 0.

(** ** Weighted means of the values that are there

    The mean of the entries of [obs] that are not NaN, each weighted by
    its entry of [d]; NaN when none is there. *)
Definition weighted_mean_present (obs d : list float) : float :=
  let present := filter (fun p => negb (Float.isnan (fst p))) (combine obs d) in
  match present with
  | [] => NaN
  | _ :: _ =>
      Fin (sumQ (map (fun p => to_Q (fst p) * to_Q (snd p)) present)
           / sumQ (map (fun p => to_Q (snd p)) present))
  end.

(** * More of the notebooks

    The definitions below embed the rest of the logic the notebook cells
    write themselves, and name the transformations its properties are
    stated with. *)

(** ** [weighted_temporal_mean]: its outcomes *)

(** One month in 2000 and one in 2002, on one grid cell. *)
Definition gap_years : dataset :=
  [ {| s_time := 15; s_year := 2000;
       s_time_bnds := [Fin 0; Fin 31]; s_air := [Fin 3] |};
    {| s_time := 746; s_year := 2002;
       s_time_bnds := [Fin 731; Fin 762]; s_air := [Fin 5] |} ].

(** A time stamp with a single bound. *)
Definition one_bound : dataset :=
  [ {| s_time := 15; s_year := 2000;
       s_time_bnds := [Fin 0; Fin 31]; s_air := [Fin 3] |};
    {| s_time := 45; s_year := 2000;
       s_time_bnds := [Fin 31]; s_air := [Fin 5] |} ].

(** ** Area-weighted means

    xarray.ipynb, cells 46 and 47: the ocean mask is the one of the first
    time step.  The grid cells of (lat, lon) are in one row, [dA] holds the
    area of every cell ([R**2 * dϕ * dλ * cos(lat)], taken as given), [sst]
    a row of cells for every time step. *)

(** [a.where(src.notnull())] *)
Definition where_notnull (a src : list float) : list float :=
  map (fun p => if Float.isnan (snd p) then NaN else fst p) (combine a src).

(** [(field * area).sum(dim=('lon', 'lat'))] *)
Definition area_sum (field area : list float) : float :=
  nansum (map (fun p => fmul (fst p) (snd p)) (combine field area)).

Definition sst_weighted_mean (dA : list float) (sst : list (list float))
  : result (list float) :=
  sst0 <- Numpy.getitem sst 0 ;;
  let pixel_area := where_notnull dA sst0 in
  let total_ocean_area := nansum pixel_area in
  Ok (map (fun sst_t => fdiv (area_sum sst_t pixel_area) total_ocean_area) sst).

(** The mean of [field] over the cells of [area] that are not masked,
    every cell weighted by its area; a cell of [field] that is missing adds
    nothing to the sum, and NaN comes out when no cell is left. *)
Definition masked_area_mean (field area : list float) : float :=
  let cells := combine field area in
  let seen := filter (fun p => negb (Float.isnan (fst p)) && negb (Float.isnan (snd p))) cells in
  let unmasked := filter (fun v => negb (Float.isnan v)) area in
  match unmasked with
  | [] => NaN
  | _ :: _ =>
      Fin (sumQ (map (fun p => to_Q (fst p) * to_Q (snd p)) seen)
           / sumQ (map to_Q unmasked))
  end.

(** An area that is a positive real, or masked. *)
Definition positive_or_masked (v : float) : Prop :=
  match v with
  | NaN => True
  | Fin q => 0 < q
  | _ => False
  end.

(** ** cesm-lens.ipynb, cell 53: the figure

    The loop over the ensemble members gives every map its index in the
    figure and the row and column of [axs] it is stored at. *)
Definition numPlotRows : Z := 8.
Definition numPlotCols : Z := 4.

Record map_plot : Type := {
  plot_index : Z;
  plotRow : Z;
  plotCol : Z
}.

Definition member_plot (ncols ensemble_index : Z) : map_plot :=
  {| plot_index := ensemble_index + 1;
     plotRow := ensemble_index / ncols;
     plotCol := ensemble_index mod ncols |}.

(** [range(n)] *)
Definition range (n : nat) : list Z := map Z.of_nat (seq 0 n).

(** The maps of the figure, in the order they are drawn: the 30 members,
    the ensemble mean and the observations. *)
Definition figure_plots : list map_plot :=
  map (member_plot numPlotCols) (range 30)
  ++ [ {| plot_index := 31; plotRow := 7; plotCol := 2 |};
       {| plot_index := 32; plotRow := 7; plotCol := 3 |} ].

(** Where [plt.subplot(nrows, ncols, index)] draws: the index counts
    from 1 in the upper left corner, along the rows. *)
Definition subplot_position (ncols index : Z) : Z * Z :=
  ((index - 1) / ncols, (index - 1) mod ncols)%Z.

(** The positions of a grid, along the rows. *)
Definition grid_positions (nrows ncols : nat) : list (Z * Z) :=
  flat_map (fun r => map (fun c => (r, c)) (range ncols)) (range nrows).

(** ** cesm-lens.ipynb, cells 40 and 41: the winter seasons

    [t.sel(time=slice(first, last)).resample(time="QS-DEC").mean("time")],
    then [.sel(time=slice(first, last))] again, then the seasons whose
    label falls in December; the notebook passes "1979" and "2012".  Only
    the time axis is followed, and of a time stamp only its year and its
    month (1 to 12), which is all these calls look at. *)
Record stamp : Type := {
  st_year : Z;
  st_month : Z
}.

(** Months counted from January of year 0. *)
Definition month_number (s : stamp) : Z := 12 * st_year s + (st_month s - 1).

Definition of_month_number (i : Z) : stamp :=
  {| st_year := i / 12; st_month := i mod 12 + 1 |}.

(** [.sel(time=slice(first, last))] with two years *)
Definition sel_years (first last : Z) (time : list stamp) : list stamp :=
  filter (fun s => (first <=? st_year s)%Z && (st_year s <=? last)%Z) time.

(** The month a quarter of "QS-DEC" starts in (December, March, June or
    September), for the quarter month [i] falls in. *)
Definition quarter_start (i : Z) : Z := 3 * ((i + 1) / 3) - 1.

(** [resample(time="QS-DEC")]: one bin for every quarter from that of the
    earliest stamp to that of the latest, labelled with its start. *)
Definition resample_QS_DEC (time : list stamp) : list stamp :=
  match map month_number time with
  | [] => []
  | i :: rest =>
      let lo := quarter_start (fold_left Z.min rest i) in
      let hi := quarter_start (fold_left Z.max rest i) in
      map (fun k => of_month_number (lo + 3 * Z.of_nat k))
          (seq 0 (Z.to_nat ((hi - lo) / 3 + 1)))
  end.

(** [seasons.sel(time=seasons.time.where(seasons.time.dt.month == 12, drop=True))] *)
Definition december_only (time : list stamp) : list stamp :=
  filter (fun s => (st_month s =? 12)%Z) time.

Definition winter_seasons_time (first last : Z) (time : list stamp) : list stamp :=
  let seasons := resample_QS_DEC (sel_years first last time) in
  let seasons := sel_years first last seasons in
  december_only seasons.

(** The Decembers of the years [first] to [last]. *)
Definition decembers (first last : Z) : list stamp :=
  map (fun j => {| st_year := first + Z.of_nat j; st_month := 12 |})
      (seq 0 (Z.to_nat (last - first + 1))).

(** Every month of the years 1979 to 2012. *)
Definition months_1979_2012 : list stamp :=
  flat_map (fun y => map (fun m => {| st_year := 1979 + Z.of_nat y;
                                       st_month := 1 + Z.of_nat m |})
                         (seq 0 12))
           (seq 0 34).

(** * Properties *)

(** ** Boolean masks *)

Lemma getitem_mask_ok {A : Type} (a : list A) (mask : list bool) :
  length a = length mask ->
  exists r, Numpy.getitem_mask a mask = Ok r.
Proof.
  revert mask; induction a as [|v a IH]; intros [|b mask] Hlen;
    simpl in *; try discriminate.
  - now exists [].
  - injection Hlen as Hlen. destruct (IH _ Hlen) as [r ->]. simpl.
    now eexists.
Qed.

Lemma length_arange n : length (Numpy.arange n) = n.
Proof. unfold Numpy.arange. now rewrite length_map, length_seq. Qed.

Lemma length_finite_mask y :
  length (Numpy.invert (Numpy.isnan y)) = length y.
Proof. unfold Numpy.invert, Numpy.isnan. now rewrite !length_map. Qed.

Lemma arange_from_mask (i : nat) (y : list float) :
  Numpy.getitem_mask (map Z.of_nat (seq i (length y)))
                     (Numpy.invert (Numpy.isnan y))
  = Ok (map fst (points_from (Z.of_nat i) y)).
Proof.
  revert i; induction y as [|v y IH]; intros i; simpl; [reflexivity|].
  rewrite IH. simpl.
  replace (Z.of_nat i + 1)%Z with (Z.of_nat (S i)) by lia.
  now destruct (Float.isnan v).
Qed.

Lemma values_from_mask (i : Z) (y : list float) :
  Numpy.getitem_mask y (Numpy.invert (Numpy.isnan y))
  = Ok (map snd (points_from i y)).
Proof.
  revert i; induction y as [|v y IH]; intros i; simpl; [reflexivity|].
  rewrite (IH (i + 1)%Z). simpl.
  now destruct (Float.isnan v).
Qed.

Lemma sum_bool_count y :
  Numpy.sum_bool (Numpy.invert (Numpy.isnan y)) = Z.of_nat (count_finite y).
Proof.
  unfold Numpy.sum_bool, count_finite, Numpy.invert, Numpy.isnan. f_equal.
  induction y as [|v y IH]; simpl; [reflexivity|].
  destruct (Float.isnan v); simpl; congruence.
Qed.

Lemma length_points_from i y : length (points_from i y) = count_finite y.
Proof.
  unfold count_finite. revert i; induction y as [|v y IH]; intros i; simpl;
    [reflexivity|].
  destruct (Float.isnan v); simpl; now rewrite IH.
Qed.

(** [calc_slope] unfolded: below two entries that are not NaN it answers
    NaN without calling [polyfit]; otherwise it calls [polyfit] once, on the
    positions and values of those entries, and takes coefficient 0. *)
Lemma calc_slope_unfold polyfit (y : list float) :
  calc_slope polyfit y =
  if (count_finite y <? 2)%nat then Ok NaN
  else
    coeffs <- polyfit (map fst (finite_points y)) (map snd (finite_points y)) 1%nat ;;
    Numpy.getitem coeffs 0.
Proof.
  unfold calc_slope. rewrite sum_bool_count.
  replace (Z.of_nat (count_finite y) <? 2)%Z with (count_finite y <? 2)%nat.
  2:{ destruct (Nat.ltb_spec (count_finite y) 2), (Z.ltb_spec (Z.of_nat (count_finite y)) 2);
      trivial; lia. }
  destruct (count_finite y <? 2)%nat; [reflexivity|].
  unfold Numpy.arange, finite_points.
  rewrite (arange_from_mask 0 y). simpl.
  now rewrite (values_from_mask 0 y).
Qed.


(** ** The points [calc_slope] fits *)

Lemma points_from_ge i y p : In p (map fst (points_from i y)) -> (i <= p)%Z.
Proof.
  revert i; induction y as [|v y IH]; intros i; simpl; [tauto|].
  destruct (Float.isnan v); simpl.
  - intros H. apply IH in H. lia.
  - intros [<-|H]; [lia|]. apply IH in H. lia.
Qed.

Lemma points_from_NoDup i y : NoDup (map fst (points_from i y)).
Proof.
  revert i; induction y as [|v y IH]; intros i; simpl; [constructor|].
  destruct (Float.isnan v); simpl; [apply IH|].
  constructor; [|apply IH].
  intros H. apply points_from_ge in H. lia.
Qed.


Lemma points_from_spec k y i v :
  In (i, v) (points_from k y) <->
  (k <= i)%Z /\ nth_error y (Z.to_nat (i - k)) = Some v /\ Float.isnan v = false.
Proof.
  revert k; induction y as [|w y IH]; intros k; simpl.
  - split; [tauto|]. intros (_ & H & _). now destruct (Z.to_nat (i - k)).
  - assert (Hstep : forall u,
              ((k + 1 <= i)%Z /\ nth_error y (Z.to_nat (i - (k + 1))) = Some u /\
               Float.isnan u = false) <->
              ((k < i)%Z /\ nth_error (w :: y) (Z.to_nat (i - k)) = Some u /\
               Float.isnan u = false)).
    { intros u. split; intros (Hk & Hn & Hu); (split; [lia|]); (split; [|exact Hu]).
      - replace (Z.to_nat (i - k)) with (S (Z.to_nat (i - (k + 1)))) by lia. exact Hn.
      - replace (Z.to_nat (i - k)) with (S (Z.to_nat (i - (k + 1)))) in Hn by lia.
        exact Hn. }
    assert (Hhead : forall u, (k <= i)%Z ->
              nth_error (w :: y) (Z.to_nat (i - k)) = Some u -> i = k \/ (k < i)%Z)
      by (intros; lia).
    destruct (Float.isnan w) eqn:Hw; simpl; rewrite IH, Hstep.
    + split; [intros (Hk & H); split; [lia|exact H]|].
      intros (Hk & Hn & Hv). destruct (Z.eq_dec i k) as [->|Hne].
      * rewrite Z.sub_diag in Hn. simpl in Hn. congruence.
      * split; [lia|]. now split.
    + split.
      * intros [H|(Hk & H)].
        -- injection H as <- <-. rewrite Z.sub_diag. simpl. repeat split; trivial; lia.
        -- split; [lia|exact H].
      * intros (Hk & Hn & Hv). destruct (Z.eq_dec i k) as [->|Hne].
        -- left. rewrite Z.sub_diag in Hn. simpl in Hn. congruence.
        -- right. split; [lia|]. now split.
Qed.

Lemma points_from_finite i y :
  Forall real_or_nan y ->
  Forall (fun v => Float.isfinite v = true) (map snd (points_from i y)).
Proof.
  intros Hy. revert i; induction Hy as [|v y Hv _ IH]; intros i; simpl;
    [constructor|].
  destruct v; simpl in *; try contradiction; [apply IH|].
  constructor; [reflexivity|apply IH].
Qed.

Lemma np_polyfit_returns : polyfit_returns np_polyfit.
Proof.
  intros xs ys Hn _ Hlen _. unfold np_polyfit.
  destruct xs as [|x xs]; [simpl in Hn; lia|].
  rewrite Hlen, Nat.eqb_refl. simpl.
  destruct (finite_values ys) as [qs|]; [|now eexists _, _].
  destruct (Qeq_bool _ 0); now eexists _, _.
Qed.

(** ** [calc_slope] *)

Example calc_slope_single_point :
  calc_slope np_polyfit [NaN; Fin 7; NaN] = Ok NaN.
Proof. reflexivity. Qed.



(** C3, as the specification states it, fails: were every failure of the
    library left to propagate, [calc_slope] would raise whenever
    [np.polyfit] raises on the data that remain.  On a series with no
    observation at all numpy raises a TypeError for the empty vector, and
    [calc_slope] answers NaN. *)
Lemma calc_slope_fallback_counterexample :
  ~ (forall polyfit y e,
       polyfit (map fst (finite_points y)) (map snd (finite_points y)) 1%nat = Raise e ->
       calc_slope polyfit y = Raise e).
Proof.
  intros H.
  specialize (H np_polyfit [NaN; NaN; NaN]
                (TypeError "expected non-empty vector for x"%string) eq_refl).
  discriminate H.
Qed.

(** C3, amended: the one value the repository puts in place of a failure
    is the NaN of [calc_slope], returned when fewer than two entries are
    not NaN; with two or more, an exception of [np.polyfit] comes out of
    [calc_slope] unchanged. *)
Theorem calc_slope_propagates
    (polyfit : list Z -> list float -> nat -> result (list float))
    (y : list float) (e : exn) :
  polyfit (map fst (finite_points y)) (map snd (finite_points y)) 1%nat = Raise e ->
  calc_slope polyfit y = if (count_finite y <? 2)%nat then Ok NaN else Raise e.
Proof.
  intros He. rewrite calc_slope_unfold, He. reflexivity.
Qed.

Lemma calc_slope_propagates_witness :
  let failing := fun (_ : list Z) (_ : list float) (_ : nat) =>
                   @Raise (list float) (TypeError "expected 1D vector for x") in
  failing (map fst (finite_points [Fin 1; Fin 2])) (map snd (finite_points [Fin 1; Fin 2])) 1%nat
    = Raise (TypeError "expected 1D vector for x") /\
  calc_slope failing [Fin 1; Fin 2] = Raise (TypeError "expected 1D vector for x").
Proof.
  intros failing. split; [reflexivity|].
  exact (calc_slope_propagates failing [Fin 1; Fin 2]
           (TypeError "expected 1D vector for x"%string) eq_refl).
Defined.


(** ** Sums and list lemmas *)

Lemma fsum_finite l :
  Forall (fun v => Float.isfinite v = true) l -> fsum l = Fin (sumQ (map to_Q l)).
Proof.
  induction 1 as [|v l Hv _ IH]; simpl; [reflexivity|].
  rewrite IH. destruct v; try discriminate. reflexivity.
Qed.

Lemma nansum_finite l :
  Forall (fun v => Float.isfinite v = true) l -> nansum l = Fin (sumQ (map to_Q l)).
Proof.
  intros H. unfold nansum.
  replace (filter (fun v => negb (Float.isnan v)) l) with l; [now apply fsum_finite|].
  induction H as [|v l Hv _ IH]; simpl; [reflexivity|].
  destruct v; try discriminate. simpl. now rewrite <- IH.
Qed.

Lemma positive_finite v : positive_diff v -> Float.isfinite v = true.
Proof. destruct v; simpl; tauto. Qed.

Lemma sumQ_positive l :
  l <> [] -> Forall positive_diff l -> 0 < sumQ (map to_Q l).
Proof.
  intros Hne H. induction H as [|v l Hv Hl IH]; [contradiction|].
  cbn [map sumQ]. destruct v; simpl in Hv; try contradiction. cbn [to_Q].
  destruct l as [|w l]; [simpl; lra|].
  assert (0 < sumQ (map to_Q (w :: l))) by (apply IH; discriminate). lra.
Qed.

Lemma length_time_bound_diff ds tbd :
  time_bound_diff ds = Ok tbd -> length tbd = length ds.
Proof.
  revert tbd. induction ds as [|s ds IH]; simpl; intros tbd H.
  - now injection H as <-.
  - destruct (Numpy.getitem (Numpy.diff (s_time_bnds s)) 0); simpl in H; [|discriminate].
    destruct (time_bound_diff ds) as [rest|]; simpl in H; [|discriminate].
    injection H as <-. simpl. now rewrite (IH rest).
Qed.

Lemma combine_nil_r {A B : Type} (l : list A) : combine l (@nil B) = [].
Proof. now destruct l. Qed.

Lemma ncells_mul_time arr wgts :
  length wgts = length arr -> ncells (mul_time arr wgts) = ncells arr.
Proof.
  destruct arr as [|row arr], wgts as [|w wgts]; simpl; try discriminate; trivial.
  intros _. now rewrite length_map.
Qed.

Lemma combine_map_same {A B C : Type} (f : A -> B) (g : A -> C) (l : list A) :
  combine (map f l) (map g l) = map (fun a => (f a, g a)) l.
Proof. induction l as [|a l IH]; simpl; congruence. Qed.

Lemma length_groupby_div_sum years v :
  length v = length years -> length (groupby_div_sum years v) = length years.
Proof.
  intros H. unfold groupby_div_sum. rewrite length_map, length_combine. lia.
Qed.

Lemma ncells_ones obs :
  ncells (map (map (fun b : bool => if b then Fin 0 else Fin 1))
              (map (map Float.isnan) obs)) = ncells obs.
Proof. destruct obs as [|row obs]; simpl; [reflexivity|]. now rewrite !length_map. Qed.

(** ** The longitude remap *)

Example remap_lon_west : exists q, remap_lon (Fin (-179)) = Fin q /\ q == 181.
Proof. eexists. split; [vm_compute; reflexivity|reflexivity]. Qed.

Example remap_longitudes_grid :
  map snd (remap_longitudes [(Fin (-179), "w"%string); (Fin (-1), "m"%string); (Fin 1, "e"%string)])
  = ["e"; "w"; "m"]%string.
Proof. vm_compute. reflexivity. Qed.

Lemma floor_mod_bounds (a b : Q) :
  0 < b ->
  0 <= a - b * inject_Z (Qfloor (a / b)) /\ a - b * inject_Z (Qfloor (a / b)) < b.
Proof.
  intros Hb.
  pose proof (Qfloor_le (a / b)) as Hlo.
  pose proof (Qlt_floor (a / b)) as Hhi.
  rewrite inject_Z_plus in Hhi. change (inject_Z 1) with 1 in Hhi.
  set (k := inject_Z (Qfloor (a / b))) in *.
  assert (E : a == b * (a / b)) by (field; lra).
  assert (H1 : 0 <= b * (a / b - k)) by (apply Qmult_le_0_compat; lra).
  assert (H2 : 0 < b * (k + 1 - a / b)) by (apply Qmult_lt_0_compat; lra).
  split.
  - assert (E1 : a - b * k == b * (a / b - k)) by (rewrite E at 1; ring).
    now rewrite E1.
  - assert (E2 : b - (a - b * k) == b * (k + 1 - a / b)) by (rewrite E at 1; ring).
    lra.
Qed.

Lemma remap_lon_range lon :
  lon_closed (-180) 180 lon -> lon_half_open 0 360 (remap_lon lon).
Proof.
  destruct lon as [| | |q]; simpl; try tauto.
  intros _. change (360 ?= 0) with Gt. cbn [lon_half_open].
  apply floor_mod_bounds. reflexivity.
Qed.

Lemma fleb_total x y : fleb x y = false -> fleb y x = true.
Proof.
  destruct x as [| | |a], y as [| | |b]; simpl; try discriminate; trivial.
  intros H. apply Qle_bool_iff.
  destruct (Qlt_le_dec b a) as [Hlt|Hle]; [now apply Qlt_le_weak|].
  apply Qle_bool_iff in Hle. congruence.
Qed.

Section SortByLon.
Context {A : Type}.

Lemma insert_by_lon_perm (p : float * A) l : Permutation (p :: l) (insert_by_lon p l).
Proof.
  induction l as [|q l IH]; simpl; [reflexivity|].
  destruct (fleb (fst p) (fst q)); [reflexivity|].
  rewrite perm_swap. now constructor.
Qed.

Lemma sortby_lon_perm (l : list (float * A)) : Permutation l (sortby_lon l).
Proof.
  induction l as [|p l IH]; simpl; [constructor|].
  rewrite <- insert_by_lon_perm. now constructor.
Qed.

Lemma insert_by_lon_HdRel (p q : float * A) l :
  lon_le q p -> HdRel lon_le q l -> HdRel lon_le q (insert_by_lon p l).
Proof.
  intros Hqp Hq. destruct l as [|r l]; simpl; [now constructor|].
  destruct (fleb (fst p) (fst r)); constructor; trivial.
  now inversion Hq.
Qed.

Lemma insert_by_lon_sorted (p : float * A) l :
  Sorted lon_le l -> Sorted lon_le (insert_by_lon p l).
Proof.
  induction 1 as [|q l Hs IH Hq]; simpl; [repeat constructor|].
  destruct (fleb (fst p) (fst q)) eqn:E.
  - constructor; [now constructor|]. now constructor.
  - constructor; [exact IH|].
    apply insert_by_lon_HdRel; trivial. now apply fleb_total.
Qed.

Lemma sortby_lon_sorted (l : list (float * A)) : Sorted lon_le (sortby_lon l).
Proof.
  induction l as [|p l IH]; simpl; [constructor|].
  now apply insert_by_lon_sorted.
Qed.

Lemma Sorted_map_fst (l : list (float * A)) :
  Sorted lon_le l -> Sorted fle (map fst l).
Proof.
  induction 1 as [|q l Hs IH Hq]; simpl; constructor; trivial.
  destruct Hq; simpl; now constructor.
Qed.

End SortByLon.

Lemma fle_Fin a b : fle (Fin a) (Fin b) <-> a <= b.
Proof. unfold fle. simpl. apply Qle_bool_iff. Qed.

(** C10: on longitudes in [[-180, 180]] the remap puts every longitude
    into [[0, 360)], leaves the longitude coordinate sorted in
    non-decreasing order, and only reorders the data along the dimension:
    the slabs, each with its remapped longitude, are a permutation of what
    went in. *)
Theorem remap_longitudes_sorted (A : Type) (ds : list (float * A)) :
  Forall (fun p => lon_closed (-180) 180 (fst p)) ds ->
  Forall (fun p => lon_half_open 0 360 (fst p)) (remap_longitudes ds) /\
  Sorted fle (map fst (remap_longitudes ds)) /\
  Permutation (assign_coords_lon ds) (remap_longitudes ds) /\
  Permutation (map snd ds) (map snd (remap_longitudes ds)).
Proof.
  intros Hds. unfold remap_longitudes.
  pose proof (sortby_lon_perm (assign_coords_lon ds)) as Hperm.
  split; [|split; [|split]].
  - eapply Permutation_Forall; [exact Hperm|].
    unfold assign_coords_lon. apply Forall_map. cbn [fst].
    eapply Forall_impl; [|exact Hds]. intros p. apply remap_lon_range.
  - apply Sorted_map_fst, sortby_lon_sorted.
  - exact Hperm.
  - rewrite <- Hperm. unfold assign_coords_lon. rewrite map_map. cbn [snd].
    reflexivity.
Qed.

Lemma remap_longitudes_sorted_witness :
  Forall (fun p => lon_closed (-180) 180 (fst p))
    [(Fin (-179), 1%Z); (Fin (-1), 2%Z); (Fin 1, 3%Z); (Fin 180, 4%Z)] /\
  Sorted fle
    (map fst (remap_longitudes
                [(Fin (-179), 1%Z); (Fin (-1), 2%Z); (Fin 1, 3%Z); (Fin 180, 4%Z)])).
Proof.
  assert (H : Forall (fun p => lon_closed (-180) 180 (fst p))
                [(Fin (-179), 1%Z); (Fin (-1), 2%Z); (Fin 1, 3%Z); (Fin 180, 4%Z)]).
  { repeat constructor; simpl; discriminate. }
  split; [exact H|].
  exact (proj1 (proj2 (remap_longitudes_sorted Z _ H))).
Defined.


(** * Further properties *)

(** ** [weighted_temporal_mean]: years, bounds and failures *)

Lemma fold_min_spec (ys : list Z) (y : Z) :
  In (fold_left Z.min ys y) (y :: ys) /\
  forall z, In z (y :: ys) -> (fold_left Z.min ys y <= z)%Z.
Proof.
  revert y. induction ys as [|x ys IH]; intros y; simpl.
  - split; [now left|]. intros z [<-|[]]. lia.
  - destruct (IH (Z.min y x)) as [Hin Hle]. split.
    + destruct Hin as [E|Hin]; [|now right; right].
      rewrite <- E. destruct (Z.min_spec y x) as [[_ ->]|[_ ->]]; [now left|right; now left].
    + intros z [<-|[<-|Hz]].
      * specialize (Hle (Z.min y x) (or_introl eq_refl)). lia.
      * specialize (Hle (Z.min y x) (or_introl eq_refl)). lia.
      * apply Hle. now right.
Qed.

Lemma fold_max_spec (ys : list Z) (y : Z) :
  In (fold_left Z.max ys y) (y :: ys) /\
  forall z, In z (y :: ys) -> (z <= fold_left Z.max ys y)%Z.
Proof.
  revert y. induction ys as [|x ys IH]; intros y; simpl.
  - split; [now left|]. intros z [<-|[]]. lia.
  - destruct (IH (Z.max y x)) as [Hin Hle]. split.
    + destruct Hin as [E|Hin]; [|now right; right].
      rewrite <- E. destruct (Z.max_spec y x) as [[_ ->]|[_ ->]]; [right; now left|now left].
    + intros z [<-|[<-|Hz]].
      * specialize (Hle (Z.max y x) (or_introl eq_refl)). lia.
      * specialize (Hle (Z.max y x) (or_introl eq_refl)). lia.
      * apply Hle. now right.
Qed.

Lemma in_consecutive lo n z :
  In z (map (fun k => (lo + Z.of_nat k)%Z) (seq 0 n)) <-> (lo <= z < lo + Z.of_nat n)%Z.
Proof.
  rewrite in_map_iff. split.
  - intros (k & <- & Hk). apply in_seq in Hk. lia.
  - intros H. exists (Z.to_nat (z - lo)). split; [lia|]. apply in_seq. lia.
Qed.

(** The bins of the annual resampling: every year between two years
    that are present. *)
Lemma year_range_spec (years : list Z) (year : Z) :
  In year (year_range years) <->
  exists y1 y2, In y1 years /\ In y2 years /\ (y1 <= year <= y2)%Z.
Proof.
  destruct years as [|y ys]; simpl year_range.
  - split; [intros []|intros (y1 & _ & [] & _)].
  - destruct (fold_min_spec ys y) as [Hlo_in Hlo]. destruct (fold_max_spec ys y) as [Hhi_in Hhi].
    rewrite in_consecutive. split.
    + intros H. exists (fold_left Z.min ys y), (fold_left Z.max ys y).
      split; [exact Hlo_in|]. split; [exact Hhi_in|]. lia.
    + intros (y1 & y2 & H1 & H2 & H). specialize (Hlo y1 H1). specialize (Hhi y2 H2). lia.
Qed.

Lemma consecutive_sorted lo n :
  Sorted Z.lt (map (fun k => (lo + Z.of_nat k)%Z) (seq 0 n)).
Proof.
  generalize 0%nat. induction n as [|n IH]; intros i; simpl; constructor; [apply IH|].
  destruct n; simpl; constructor. lia.
Qed.

Lemma year_range_sorted years : Sorted Z.lt (year_range years).
Proof. destruct years; simpl; [constructor|apply consecutive_sorted]. Qed.

Lemma existsb_eqb_In year years : existsb (Z.eqb year) years = true <-> In year years.
Proof.
  rewrite existsb_exists. split.
  - intros (y & Hy & E). apply Z.eqb_eq in E. now subst.
  - intros H. exists year. split; [exact H|apply Z.eqb_refl].
Qed.

Lemma unique_years_spec years year : In year (unique_years years) <-> In year years.
Proof.
  unfold unique_years. rewrite filter_In, existsb_eqb_In, year_range_spec. split.
  - tauto.
  - intros H. split; [|exact H]. exists year, year. repeat split; trivial; lia.
Qed.

Lemma in_year_absent {A : Type} year years (v : list A) :
  ~ In year years -> in_year year years v = [].
Proof.
  unfold in_year. revert v. induction years as [|y years IH]; intros v H; [reflexivity|].
  destruct v as [|a v]; [reflexivity|]. simpl.
  destruct (Z.eqb_spec y year) as [->|_]; [exfalso; apply H; now left|].
  apply IH. intros Hin. apply H. now right.
Qed.

(** What [weighted_temporal_mean] returns when it returns. *)
Lemma weighted_temporal_mean_unfold (ds : dataset) (obs_s : list (Z * float)) :
  weighted_temporal_mean ds = Ok obs_s ->
  exists tbd,
    time_bound_diff ds = Ok tbd /\
    let years := map s_year ds in
    let wgts := groupby_div_sum years tbd in
    let obs := map s_air ds in
    let ones := map (map (fun c : bool => if c then Fin 0 else Fin 1))
                    (map (map Float.isnan) obs) in
    weights_check years wgts = Ok tt /\
    obs_s = map (fun year =>
                   (year,
                    nanmean (map (fun c =>
                       fdiv (nansum (column c (in_year year years (mul_time obs wgts))))
                            (nansum (column c (in_year year years (mul_time ones wgts)))))
                       (seq 0 (ncells obs)))))
                (year_range years).
Proof.
  unfold weighted_temporal_mean. intros H.
  destruct (time_bound_diff ds) as [tbd|] eqn:Htbd; simpl in H; [|discriminate].
  exists tbd. split; [reflexivity|]. cbv zeta.
  destruct (groupby_year (map s_year ds)) as [[]|]; simpl in H; [|discriminate].
  destruct (weights_check (map s_year ds) (groupby_div_sum (map s_year ds) tbd))
    as [[]|] eqn:Hcheck; simpl in H; [|discriminate].
  destruct (resample_time (map s_time ds)) as [[]|]; simpl in H; [|discriminate].
  split; [reflexivity|]. injection H as <-.
  assert (Hlen : length tbd = length (map s_year ds))
    by (rewrite length_map; now apply length_time_bound_diff).
  assert (Hw : length (groupby_div_sum (map s_year ds) tbd) = length (map s_air ds)).
  { rewrite length_groupby_div_sum by exact Hlen. now rewrite !length_map. }
  unfold resample_sum.
  rewrite ncells_mul_time by exact Hw.
  rewrite ncells_mul_time by (rewrite Hw; now rewrite !length_map).
  rewrite ncells_ones, combine_map_same, map_map. cbn [fst snd].
  apply map_ext. intros year. f_equal.
  now rewrite combine_map_same, map_map.
Qed.

Lemma nanmean_all_nan {A : Type} (l : list A) : nanmean (map (fun _ => NaN) l) = NaN.
Proof.
  unfold nanmean.
  replace (filter (fun v => negb (Float.isnan v)) (map (fun _ : A => NaN) l)) with (@nil float);
    [reflexivity|].
  induction l; simpl; trivial.
Qed.

(** X7: when [weighted_temporal_mean] returns, its series has one entry
    for every year from the first to the last year of the time axis, in
    increasing order; a year in between without a time stamp is there too,
    with NaN. *)
Theorem weighted_temporal_mean_years (ds : dataset) (obs_s : list (Z * float)) :
  weighted_temporal_mean ds = Ok obs_s ->
  map fst obs_s = year_range (map s_year ds) /\
  Sorted Z.lt (map fst obs_s) /\
  (forall year,
     In year (map fst obs_s) <->
     exists y1 y2, In y1 (map s_year ds) /\ In y2 (map s_year ds) /\ (y1 <= year <= y2)%Z) /\
  (forall year,
     In year (map fst obs_s) -> ~ In year (map s_year ds) -> In (year, NaN) obs_s).
Proof.
  intros H. destruct (weighted_temporal_mean_unfold ds obs_s H) as (tbd & _ & _ & ->).
  assert (Hfst : forall f : Z -> float,
             map fst (map (fun year => (year, f year)) (year_range (map s_year ds)))
             = year_range (map s_year ds)).
  { intros f. rewrite map_map. cbn [fst]. apply map_id. }
  rewrite Hfst. split; [reflexivity|]. split; [apply year_range_sorted|].
  split; [intros year; apply year_range_spec|].
  intros year Hin Habs. apply in_map_iff. exists year. split; [|exact Hin].
  f_equal. rewrite !(in_year_absent year _ _ Habs). cbn [column map nansum filter fsum fdiv].
  change (0 ?= 0) with Eq. cbn [signed_inf]. change (0 ?= 0) with Eq.
  apply nanmean_all_nan.
Qed.

Lemma weighted_temporal_mean_years_witness :
  exists obs_s,
    weighted_temporal_mean gap_years = Ok obs_s /\
    map fst obs_s = [2000; 2001; 2002]%Z /\
    In (2001%Z, NaN) obs_s.
Proof.
  eexists. split; [reflexivity|].
  pose proof (weighted_temporal_mean_years gap_years _ eq_refl) as (H1 & _ & _ & H4).
  split; [exact H1|].
  apply H4; [rewrite H1; simpl; tauto|].
  simpl. intros [E|[E|[]]]; discriminate.
Defined.

Lemma getitem_diff_short (row : list float) :
  (length row < 2)%nat ->
  Numpy.getitem (Numpy.diff row) 0 = Raise (IndexError "index out of bounds").
Proof.
  destruct row as [|a [|b row]]; simpl; intros H; try reflexivity. lia.
Qed.

Lemma getitem_diff_ok (row : list float) :
  (2 <= length row)%nat -> exists d, Numpy.getitem (Numpy.diff row) 0 = Ok d.
Proof.
  destruct row as [|a [|b row]]; simpl; intros H; try lia. eexists. reflexivity.
Qed.

Lemma time_bound_diff_short (ds : dataset) :
  Exists (fun s => (length (s_time_bnds s) < 2)%nat) ds ->
  time_bound_diff ds = Raise (IndexError "index out of bounds").
Proof.
  induction ds as [|s ds IH]; intros H; [inversion H|]. simpl.
  destruct (Nat.lt_ge_cases (length (s_time_bnds s)) 2) as [Hs|Hs].
  - now rewrite getitem_diff_short.
  - destruct (getitem_diff_ok _ Hs) as [d ->]. simpl.
    inversion H as [? ? Hs'|? ? Hds]; subst; [lia|].
    now rewrite IH.
Qed.

Lemma time_bound_diff_ok (ds : dataset) :
  Forall (fun s => (2 <= length (s_time_bnds s))%nat) ds ->
  exists tbd, time_bound_diff ds = Ok tbd.
Proof.
  induction 1 as [|s ds Hs _ [tbd IH]]; simpl; [now eexists|].
  destruct (getitem_diff_ok _ Hs) as [d ->]. rewrite IH. simpl. now eexists.
Qed.




(** The other ways out of [weighted_temporal_mean]: a time axis without
    entries stops at the first [groupby]; a time axis that runs backwards
    passes the check of the weights and stops at [resample]; two months
    in their order come back as one annual mean. *)
Example weighted_temporal_mean_empty :
  weighted_temporal_mean [] = Raise (ValueError "year must not be empty").
Proof. reflexivity. Qed.

Example weighted_temporal_mean_backwards :
  weighted_temporal_mean (rev jan_feb)
  = Raise (ValueError "index must be monotonic for resampling").
Proof. reflexivity. Qed.

Example weighted_temporal_mean_jan_feb :
  exists v, weighted_temporal_mean jan_feb = Ok [(2000%Z, v)].
Proof. eexists. vm_compute. reflexivity. Qed.

(** ** Area-weighted means *)

Lemma nansum_products (field area : list float) :
  Forall real_or_nan field -> Forall positive_or_masked area ->
  area_sum field area
  = Fin (sumQ (map (fun p => to_Q (fst p) * to_Q (snd p))
                   (filter (fun p => negb (Float.isnan (fst p)) && negb (Float.isnan (snd p)))
                           (combine field area)))).
Proof.
  intros Hf. unfold area_sum, nansum. revert area.
  induction Hf as [|o field Ho _ IH]; intros area Ha; [reflexivity|].
  destruct Ha as [|a area Ha Harea]; [reflexivity|].
  cbn [combine map filter fst snd]. specialize (IH area Harea).
  destruct o as [| | |o], a as [| | |a]; simpl in Ho, Ha; try contradiction;
    cbn [fmul Float.isnan negb andb filter fsum map sumQ fst snd to_Q]; try exact IH.
  rewrite IH. reflexivity.
Qed.

Lemma nansum_areas (area : list float) :
  Forall positive_or_masked area ->
  nansum area = Fin (sumQ (map to_Q (filter (fun v => negb (Float.isnan v)) area))) /\
  (filter (fun v => negb (Float.isnan v)) area <> [] ->
   0 < sumQ (map to_Q (filter (fun v => negb (Float.isnan v)) area))).
Proof.
  intros Ha. unfold nansum.
  assert (Hk : Forall positive_diff (filter (fun v => negb (Float.isnan v)) area)).
  { apply Forall_forall. intros v Hv. apply filter_In in Hv as [Hin Hnan].
    rewrite Forall_forall in Ha. specialize (Ha v Hin).
    destruct v; simpl in *; try contradiction; try discriminate. exact Ha. }
  split.
  - apply fsum_finite. eapply Forall_impl; [|exact Hk]. apply positive_finite.
  - intros Hne. now apply sumQ_positive.
Qed.

(** The ratio of the two sums. *)
Lemma area_mean (field area : list float) :
  Forall real_or_nan field -> Forall positive_or_masked area ->
  feq (fdiv (area_sum field area) (nansum area)) (masked_area_mean field area).
Proof.
  intros Hf Ha. rewrite (nansum_products field area Hf Ha).
  destruct (nansum_areas area Ha) as [-> Hpos]. unfold masked_area_mean.
  destruct (filter (fun v => negb (Float.isnan v)) area) as [|a unmasked] eqn:E.
  - assert (Hseen : filter (fun p => negb (Float.isnan (fst p)) && negb (Float.isnan (snd p)))
                      (combine field area) = []).
    { destruct (filter _ (combine field area)) as [|p seen] eqn:Es; [reflexivity|exfalso].
      assert (Hp : In p (p :: seen)) by now left. rewrite <- Es in Hp.
      apply filter_In in Hp as [Hin Hb]. apply andb_prop in Hb as [_ Hb].
      assert (Hin' : In (snd p) (filter (fun v => negb (Float.isnan v)) area)).
      { apply filter_In. split; [|exact Hb]. destruct p. eapply in_combine_r, Hin. }
      rewrite E in Hin'. exact Hin'. }
    rewrite Hseen. reflexivity.
  - specialize (Hpos ltac:(discriminate)).
    cbn [fdiv]. assert (Hgt : (sumQ (map to_Q (a :: unmasked)) ?= 0) = Gt) by (now apply Qgt_alt).
    rewrite Hgt. cbn [feq]. reflexivity.
Qed.

Lemma feq_sym x y : feq x y -> feq y x.
Proof. destruct x, y; simpl; try tauto. intros E. now symmetry. Qed.

Lemma feq_trans x y z : feq x y -> feq y z -> feq x z.
Proof. destruct x, y, z; simpl; try tauto. intros E1 E2. now rewrite E1. Qed.

Lemma where_notnull_masked (dA src : list float) :
  Forall positive_diff dA -> Forall positive_or_masked (where_notnull dA src).
Proof.
  intros H. unfold where_notnull. apply Forall_map, Forall_forall. intros [a s] Hin.
  cbn [fst snd]. destruct (Float.isnan s); [exact I|].
  rewrite Forall_forall in H. specialize (H a (in_combine_l _ _ _ _ Hin)).
  destruct a; simpl in *; tauto.
Qed.

(** With the mask of the first time step, a time step with the same
    missing cells is averaged over the cells it has. *)
Lemma masked_area_mean_same_mask (dA sst0 sst_t : list float) :
  Forall positive_diff dA ->
  map Float.isnan sst_t = map Float.isnan sst0 ->
  masked_area_mean sst_t (where_notnull dA sst0) = weighted_mean_present sst_t dA.
Proof.
  intros HdA Hmask. unfold masked_area_mean, weighted_mean_present.
  assert (H : map (fun p => to_Q (fst p) * to_Q (snd p))
                (filter (fun p => negb (Float.isnan (fst p)) && negb (Float.isnan (snd p)))
                        (combine sst_t (where_notnull dA sst0)))
              = map (fun p => to_Q (fst p) * to_Q (snd p))
                    (filter (fun p => negb (Float.isnan (fst p))) (combine sst_t dA))
              /\
              map to_Q (filter (fun v => negb (Float.isnan v)) (where_notnull dA sst0))
              = map (fun p => to_Q (snd p))
                    (filter (fun p => negb (Float.isnan (fst p))) (combine sst_t dA))).
  { unfold where_notnull. revert sst0 sst_t Hmask.
    induction HdA as [|a dA Ha _ IH]; intros sst0 sst_t Hmask.
    - rewrite !combine_nil_r. simpl. now rewrite combine_nil_r.
    - destruct sst0 as [|s0 sst0], sst_t as [|st sst_t]; try discriminate;
        [split; reflexivity|].
      injection Hmask as Hs Hmask. destruct (IH sst0 sst_t Hmask) as [IH1 IH2].
      cbn [combine map filter fst snd]. rewrite <- Hs.
      destruct a; simpl in Ha; try contradiction.
      destruct (Float.isnan st); cbn [negb andb Float.isnan filter map fst snd];
        [split; assumption|].
      split; f_equal; assumption. }
  destruct H as [H1 H2]. rewrite H1.
  destruct (filter (fun v => negb (Float.isnan v)) (where_notnull dA sst0)) as [|v unmasked];
    destruct (filter (fun p => negb (Float.isnan (fst p))) (combine sst_t dA)) as [|p present];
    try discriminate; [reflexivity|].
  now rewrite H2.
Qed.



Example sst_weighted_mean_no_time_step :
  sst_weighted_mean [Fin 1] [] = Raise (IndexError "index out of bounds").
Proof. reflexivity. Qed.

(** A cell that goes missing after the first time step still counts in
    the total area, which pulls the mean towards zero. *)
Example sst_weighted_mean_lost_cell :
  exists u v, sst_weighted_mean [Fin 1; Fin 1] [[Fin 20; Fin 20]; [NaN; Fin 20]]
              = Ok [Fin u; Fin v] /\ u == 20 /\ v == 10.
Proof. do 2 eexists. split; [vm_compute; reflexivity|split; reflexivity]. Qed.

(** ** The figure *)

(** X16: the loop of cell 53 stores every member's map at the row and
    column of [axs] where [plt.subplot] draws its index, inside the grid
    and at a different place for every member; with the ensemble mean and
    the observations the 32 maps fill the grid of 8 by 4 exactly, row by
    row. *)
Theorem figure_fills_grid :
  (forall nrows ncols i,
     (0 < ncols)%Z -> (0 <= i < nrows * ncols)%Z ->
     let p := member_plot ncols i in
     subplot_position ncols (plot_index p) = (plotRow p, plotCol p) /\
     (0 <= plotRow p < nrows)%Z /\ (0 <= plotCol p < ncols)%Z /\
     (plotRow p * ncols + plotCol p = i)%Z) /\
  map (fun p => (plotRow p, plotCol p)) figure_plots = grid_positions 8 4 /\
  map (fun p => subplot_position numPlotCols (plot_index p)) figure_plots
  = grid_positions 8 4.
Proof.
  split; [|split; reflexivity].
  intros nrows ncols i Hc Hi p. unfold p, member_plot, subplot_position.
  cbn [plot_index plotRow plotCol].
  replace (i + 1 - 1)%Z with i by lia.
  split; [reflexivity|].
  pose proof (Z.mod_pos_bound i ncols Hc).
  pose proof (Z.div_mod i ncols ltac:(lia)).
  assert (0 <= i / ncols)%Z by (apply Z.div_pos; lia).
  assert (i / ncols < nrows)%Z by (apply Z.div_lt_upper_bound; lia).
  repeat split; lia.
Qed.

Lemma figure_fills_grid_witness :
  let p := member_plot 4 29 in
  subplot_position 4 (plot_index p) = (plotRow p, plotCol p) /\
  (0 <= plotRow p < 8)%Z /\ (0 <= plotCol p < 4)%Z /\
  (plotRow p * 4 + plotCol p = 29)%Z.
Proof.
  exact (proj1 figure_fills_grid 8%Z 4%Z 29%Z ltac:(lia) ltac:(lia)).
Defined.

(** ** The winter seasons *)

Lemma StronglySorted_filter {A : Type} (R : A -> A -> Prop) (f : A -> bool) (l : list A) :
  StronglySorted R l -> StronglySorted R (filter f l).
Proof.
  induction 1 as [|a l Hs IH Ha]; simpl; [constructor|].
  destruct (f a); [|exact IH]. constructor; [exact IH|].
  apply Forall_forall. intros x Hx. apply filter_In in Hx as [Hx _].
  rewrite Forall_forall in Ha. now apply Ha.
Qed.

(** Two strictly increasing lists with the same members are the same. *)
Lemma increasing_ext (l1 l2 : list Z) :
  StronglySorted Z.lt l1 -> StronglySorted Z.lt l2 ->
  (forall z, In z l1 <-> In z l2) -> l1 = l2.
Proof.
  intros H1. revert l2. induction H1 as [|a l1 Hs1 IH Ha]; intros l2 H2 Hin.
  - destruct l2 as [|b l2]; [reflexivity|]. exfalso. apply (Hin b). now left.
  - destruct H2 as [|b l2 Hs2 Hb].
    + exfalso. apply (Hin a). now left.
    + rewrite Forall_forall in Ha, Hb.
      assert (E : a = b).
      { destruct (proj1 (Hin a) (or_introl eq_refl)) as [E|Ha2]; [now symmetry|].
        destruct (proj2 (Hin b) (or_introl eq_refl)) as [E|Hb1]; [exact E|].
        specialize (Ha b Hb1). specialize (Hb a Ha2). lia. }
      subst b. f_equal. apply IH; [exact Hs2|].
      intros z. split; intros Hz.
      * destruct (proj1 (Hin z) (or_intror Hz)) as [E|Hz2]; [|exact Hz2].
        specialize (Ha z Hz). lia.
      * destruct (proj2 (Hin z) (or_intror Hz)) as [E|Hz1]; [|exact Hz1].
        specialize (Hb z Hz). lia.
Qed.

Lemma progression_sorted (lo step : Z) (n : nat) :
  (0 < step)%Z ->
  StronglySorted Z.lt (map (fun k => (lo + step * Z.of_nat k)%Z) (seq 0 n)).
Proof.
  intros Hstep. apply Sorted_StronglySorted; [intros x y z; lia|].
  generalize 0%nat. induction n as [|n IH]; intros i; simpl; constructor; [apply IH|].
  destruct n; simpl; constructor. lia.
Qed.

Lemma in_progression (lo step : Z) (n : nat) (z : Z) :
  In z (map (fun k => (lo + step * Z.of_nat k)%Z) (seq 0 n)) <->
  exists k, (0 <= k < Z.of_nat n)%Z /\ z = (lo + step * k)%Z.
Proof.
  rewrite in_map_iff. split.
  - intros (k & <- & Hk). apply in_seq in Hk. exists (Z.of_nat k). split; [lia|reflexivity].
  - intros (k & Hk & ->). exists (Z.to_nat k). split; [now rewrite Z2Nat.id by lia|]. apply in_seq. lia.
Qed.

Lemma filter_of_map {A B : Type} (f : A -> B) (P : B -> bool) (l : list A) :
  filter P (map f l) = map f (filter (fun a => P (f a)) l).
Proof.
  induction l as [|a l IH]; simpl; [reflexivity|].
  destruct (P (f a)); simpl; now rewrite IH.
Qed.

Lemma of_month_number_december (y : Z) :
  of_month_number (12 * y + 11) = {| st_year := y; st_month := 12 |}.
Proof.
  unfold of_month_number. f_equal.
  all: Z.div_mod_to_equations.
  all: lia.
Qed.

(** The seasons that are left, for a time axis that has a stamp in the
    first year and one in December of the last year. *)
Lemma winter_seasons_time_eq (first last : Z) (time : list stamp) :
  Forall (fun s => (1 <= st_month s <= 12)%Z) time ->
  (exists s, In s time /\ st_year s = first) ->
  (exists s, In s time /\ st_year s = last /\ st_month s = 12%Z) ->
  (first <= last)%Z ->
  winter_seasons_time first last time = decembers first last.
Proof.
  intros Hmonths (s1 & Hs1 & Hy1) (s2 & Hs2 & Hy2 & Hm2) Hfl.
  unfold winter_seasons_time.
  set (S := sel_years first last time).
  assert (HS : forall s, In s S <->
                 In s time /\ (first <= st_year s <= last)%Z).
  { intros s. unfold S, sel_years. rewrite filter_In, andb_true_iff, !Z.leb_le. tauto. }
  assert (HSm : forall s, In s S -> (1 <= st_month s <= 12)%Z).
  { intros s Hs. apply HS in Hs as [Hs _]. rewrite Forall_forall in Hmonths. now apply Hmonths. }
  assert (H1 : In s1 S) by (apply HS; split; [exact Hs1|lia]).
  assert (H2 : In s2 S) by (apply HS; split; [exact Hs2|lia]).
  unfold resample_QS_DEC.
  destruct (map month_number S) as [|i rest] eqn:EM.
  { apply map_eq_nil in EM. rewrite EM in H1. destruct H1. }
  destruct (fold_min_spec rest i) as [Hmin_in Hmin]. destruct (fold_max_spec rest i) as [Hmax_in Hmax].
  set (lo_m := fold_left Z.min rest i) in *. set (hi_m := fold_left Z.max rest i) in *.
  rewrite <- EM in Hmin_in, Hmin, Hmax_in, Hmax.
  apply in_map_iff in Hmin_in as (smin & Emin & Hsmin).
  apply in_map_iff in Hmax_in as (smax & Emax & Hsmax).
  pose proof (Hmin _ (in_map month_number _ _ H1)) as Hmin1.
  pose proof (Hmax _ (in_map month_number _ _ H2)) as Hmax2.
  pose proof (proj2 (proj1 (HS smin) Hsmin)) as Hymin. pose proof (HSm smin Hsmin) as Hmmin.
  pose proof (proj2 (proj1 (HS smax) Hsmax)) as Hymax. pose proof (HSm smax Hsmax) as Hmmax.
  pose proof (HSm s1 H1) as Hm1.
  unfold month_number in *.
  assert (Hlo : (12 * first <= lo_m <= 12 * first + 11)%Z) by lia.
  assert (Hhi : hi_m = (12 * last + 11)%Z) by lia.
  clear Emin Emax Hmin Hmax Hmin1 Hmax2 Hymin Hymax Hmmin Hmmax.
  unfold quarter_start. rewrite Hhi.
  set (lo := (3 * ((lo_m + 1) / 3) - 1)%Z).
  set (hi := (3 * ((12 * last + 11 + 1) / 3) - 1)%Z).
  rewrite <- (map_map (fun k : nat => (lo + 3 * Z.of_nat k)%Z) of_month_number).
  unfold sel_years, december_only.
  rewrite (filter_of_map of_month_number), (filter_of_map of_month_number).
  unfold decembers.
  transitivity (map of_month_number
                  (map (fun k => (12 * first + 11 + 12 * Z.of_nat k)%Z)
                       (seq 0 (Z.to_nat (last - first + 1))))).
  2:{ rewrite map_map. apply map_ext. intros j.
      replace (12 * first + 11 + 12 * Z.of_nat j)%Z with (12 * (first + Z.of_nat j) + 11)%Z
        by lia.
      apply of_month_number_december. }
  f_equal.
  apply increasing_ext.
  - do 2 apply StronglySorted_filter. apply progression_sorted. lia.
  - apply progression_sorted. lia.
  - intros z. rewrite !filter_In, in_progression, in_progression.
    unfold of_month_number. cbn [st_year st_month].
    rewrite andb_true_iff, !Z.leb_le, Z.eqb_eq.
    rewrite Z2Nat.id by (unfold hi, lo; Z.div_mod_to_equations; lia).
    rewrite Z2Nat.id by lia.
    unfold hi, lo. split.
    + intros [[(k & Hk & Hz) [Hya Hyb]] Hm].
      exists (z / 12 - first)%Z. Z.div_mod_to_equations. lia.
    + intros (j & Hj & Hz). repeat split.
      * exists ((z - (3 * ((lo_m + 1) / 3) - 1)) / 3)%Z. Z.div_mod_to_equations. lia.
      * Z.div_mod_to_equations. lia.
      * Z.div_mod_to_equations. lia.
      * Z.div_mod_to_equations. lia.
Qed.

(** X17: for a time axis with a stamp in the first year and one in
    December of the last year, the winter seasons of cell 41 are the
    Decembers of the first to the last year, one for every year, so the
    assertion of cell 42 passes exactly when the slice spans 34 years. *)
Theorem winter_seasons_count (first last : Z) (time : list stamp) :
  Forall (fun s => (1 <= st_month s <= 12)%Z) time ->
  (exists s, In s time /\ st_year s = first) ->
  (exists s, In s time /\ st_year s = last /\ st_month s = 12%Z) ->
  (first <= last)%Z ->
  winter_seasons_time first last time = decembers first last /\
  length (winter_seasons_time first last time) = Z.to_nat (last - first + 1) /\
  (check_winter_seasons (winter_seasons_time first last time) = Ok tt <->
   (last - first + 1 = 34)%Z).
Proof.
  intros Hm H1 H2 Hfl.
  rewrite (winter_seasons_time_eq first last time Hm H1 H2 Hfl).
  assert (Hlen : length (decembers first last) = Z.to_nat (last - first + 1)).
  { unfold decembers. now rewrite length_map, length_seq. }
  split; [reflexivity|]. split; [exact Hlen|].
  unfold check_winter_seasons. rewrite Hlen.
  destruct (Nat.eqb_spec (Z.to_nat (last - first + 1)) 34) as [E|E]; split; intros H;
    try reflexivity; try discriminate; lia.
Qed.

Lemma winter_seasons_count_witness :
  Forall (fun s => (1 <= st_month s <= 12)%Z) months_1979_2012 /\
  (exists s, In s months_1979_2012 /\ st_year s = 1979%Z) /\
  (exists s, In s months_1979_2012 /\ st_year s = 2012%Z /\ st_month s = 12%Z) /\
  check_winter_seasons (winter_seasons_time 1979 2012 months_1979_2012) = Ok tt.
Proof.
  assert (Hm : Forall (fun s => (1 <= st_month s <= 12)%Z) months_1979_2012).
  { apply Forall_forall. intros s Hs. unfold months_1979_2012 in Hs.
    apply in_flat_map in Hs as (y & _ & Hs). apply in_map_iff in Hs as (m & <- & Hin).
    apply in_seq in Hin. cbn [st_month]. lia. }
  assert (H1 : exists s, In s months_1979_2012 /\ st_year s = 1979%Z).
  { exists {| st_year := 1979; st_month := 1 |}. split; [|reflexivity].
    unfold months_1979_2012. apply in_flat_map. exists 0%nat.
    split; [apply in_seq; lia|]. apply in_map_iff. exists 0%nat.
    split; [reflexivity|apply in_seq; lia]. }
  assert (H2 : exists s, In s months_1979_2012 /\ st_year s = 2012%Z /\ st_month s = 12%Z).
  { exists {| st_year := 2012; st_month := 12 |}. split; [|split; reflexivity].
    unfold months_1979_2012. apply in_flat_map. exists 33%nat.
    split; [apply in_seq; lia|]. apply in_map_iff. exists 11%nat.
    split; [reflexivity|apply in_seq; lia]. }
  split; [exact Hm|]. split; [exact H1|]. split; [exact H2|].
  apply (proj2 (proj2 (winter_seasons_count 1979 2012 months_1979_2012 Hm H1 H2
                         ltac:(lia)))).
  reflexivity.
Defined.

Example winter_seasons_first_and_last :
  hd_error (winter_seasons_time 1979 2012 months_1979_2012)
    = Some {| st_year := 1979; st_month := 12 |} /\
  last (winter_seasons_time 1979 2012 months_1979_2012) {| st_year := 0; st_month := 0 |}
    = {| st_year := 2012; st_month := 12 |}.
Proof. vm_compute. split; reflexivity. Qed.

(** ** The assertions the notebook makes *)


Example weighted_temporal_mean_zero_width :
  weighted_temporal_mean zero_width
  = Raise (AssertionError "Not equal to tolerance rtol=1e-07, atol=0").
Proof. reflexivity. Qed.


Lemma forallb_false_exists {A : Type} (f : A -> bool) (l : list A) :
  forallb f l = false <-> exists a, In a l /\ f a = false.
Proof.
  induction l as [|b l IH]; simpl.
  - split; [discriminate|]. intros (a & [] & _).
  - rewrite andb_false_iff, IH. split.
    + intros [H|(a & Ha & H)]; [exists b; auto|exists a; auto].
    + intros (a & [<-|Ha] & H); [now left|right; now exists a].
Qed.




(** ** What [calc_slope] adds to the library *)


Example polyfit_slope_with_gaps :
  polyfit_slope np_polyfit [NaN; Fin 1; NaN; Fin 3] = Ok NaN.
Proof. reflexivity. Qed.

Lemma points_from_no_gaps (i : nat) (y : list float) :
  Forall (fun v => Float.isnan v = false) y ->
  map fst (points_from (Z.of_nat i) y) = map Z.of_nat (seq i (length y)) /\
  map snd (points_from (Z.of_nat i) y) = y.
Proof.
  intros Hy. revert i; induction Hy as [|v y Hv _ IH]; intros i; simpl;
    [now split|].
  rewrite Hv. simpl.
  replace (Z.of_nat i + 1)%Z with (Z.of_nat (S i)) by lia.
  destruct (IH (S i)) as [-> ->]. now split.
Qed.

Lemma count_finite_no_gaps (y : list float) :
  Forall (fun v => Float.isnan v = false) y -> count_finite y = length y.
Proof.
  intros Hy. unfold count_finite. induction Hy as [|v y Hv _ IH]; simpl;
    [reflexivity|].
  rewrite Hv. simpl. now rewrite IH.
Qed.



(** ** The calls of the notebooks *)

Import Notebook.
Local Open Scope string_scope.







